(** * A shallow embedding of the fat32-parser crate (src/src/*.rs)

    Integers of the Rust code ([u8], [u16], [u32], [usize]) are modelled as
    [Z]; the wrap-around of [u32] arithmetic (release build) is written out
    with [u32_wrap].  Bytes are [Byte.byte].  A Rust panic (slice index out
    of range, division by zero) is the outcome [Panic]. *)

From Stdlib Require Import ZArith List Lia Bool Strings.Byte.
Import ListNotations.
Open Scope Z_scope.

(** ** Errors (src/src/error.rs, src/src/block_device.rs) *)

Inductive BlockDeviceError := BD_IoError | BD_OutOfBounds.

Inductive Fat32Error :=
| IoError
| OutOfBounds
| InvalidBootSector
| NotFat32
| InvalidCluster (c : Z)
| InvalidPath
| NotFound
| IsDirectory
| IsNotDirectory
| BufferTooSmall.

(** [impl From<BlockDeviceError> for Fat32Error] *)
Definition fat32_error_from (e : BlockDeviceError) : Fat32Error :=
  match e with
  | BD_IoError => IoError
  | BD_OutOfBounds => OutOfBounds
  end.

(** Outcome of a Rust function returning [Result<A>]: [Ok], [Err], or a panic. *)
Inductive Res (A : Type) :=
| Ok (a : A)
| Err (e : Fat32Error)
| Panic.
Arguments Ok {A} a.
Arguments Err {A} e.
Arguments Panic {A}.

(** ** Machine integers and little-endian reads *)

Definition u32_wrap (z : Z) : Z := z mod 2 ^ 32.

Definition byte_val (b : byte) : Z := Z.of_N (Byte.to_N b).

(** [s[i]] on a slice known to be long enough. *)
Definition rd8 (s : list byte) (i : Z) : Z := byte_val (nth (Z.to_nat i) s x00).

Definition le16 (s : list byte) (i : Z) : Z :=
  rd8 s i + 256 * rd8 s (i + 1).

(** [u32::from_le_bytes([s[i], s[i+1], s[i+2], s[i+3]])] *)
Definition le32 (s : list byte) (i : Z) : Z :=
  rd8 s i + 256 * rd8 s (i + 1) + 65536 * rd8 s (i + 2) + 16777216 * rd8 s (i + 3).

(** ** FAT entries (src/src/fat.rs) *)

Module Fat.

Record FatEntry := FatEntry_new { value : Z }.

Definition is_end (e : FatEntry) : bool := 0x0FFFFFF8 <=? value e.
Definition is_free (e : FatEntry) : bool := value e =? 0x00000000.
Definition is_bad (e : FatEntry) : bool := value e =? 0x0FFFFFF7.

Definition next_cluster (e : FatEntry) : option Z :=
  if is_free e || is_bad e || is_end e then None
  else Some (Z.land (value e) 0x0FFFFFFF).

End Fat.
Import Fat.

(** ** Boot sector (src/src/boot_sector.rs) *)

Record BiosParameterBlock := {
  bytes_per_sector : Z;
  sectors_per_cluster : Z;
  reserved_sector_count : Z;
  num_fats : Z;
  root_entry_count : Z;
  total_sectors_16 : Z;
  media : Z;
  fat_size_16 : Z;
  sectors_per_track : Z;
  num_heads : Z;
  hidden_sectors : Z;
  total_sectors_32 : Z;
  fat_size_32 : Z;
  ext_flags : Z;
  fs_version : Z;
  root_cluster : Z
}.

(** [BiosParameterBlock::from_sector]: the packed, little-endian record
    overlaid at byte offset 11 of the sector. *)
Definition from_sector (s : list byte) : BiosParameterBlock := {|
  bytes_per_sector := le16 s 11;
  sectors_per_cluster := rd8 s 13;
  reserved_sector_count := le16 s 14;
  num_fats := rd8 s 16;
  root_entry_count := le16 s 17;
  total_sectors_16 := le16 s 19;
  media := rd8 s 21;
  fat_size_16 := le16 s 22;
  sectors_per_track := le16 s 24;
  num_heads := le16 s 26;
  hidden_sectors := le32 s 28;
  total_sectors_32 := le32 s 32;
  fat_size_32 := le32 s 36;
  ext_flags := le16 s 40;
  fs_version := le16 s 42;
  root_cluster := le32 s 44
|}.

Record Fat32Geometry := {
  first_data_sector : Z;
  fat_start_lba : Z;
  g_root_cluster : Z;
  g_sectors_per_cluster : Z;
  g_bytes_per_sector : Z
}.

Definition from_bpb (bpb : BiosParameterBlock) : Fat32Geometry :=
  let fats := num_fats bpb in
  let reserved := reserved_sector_count bpb in
  let fat_size := if negb (fat_size_16 bpb =? 0) then fat_size_16 bpb
                  else fat_size_32 bpb in
  let first_data_sector := u32_wrap (reserved + u32_wrap (fats * fat_size)) in
  {| first_data_sector := first_data_sector;
     fat_start_lba := reserved;
     g_root_cluster := root_cluster bpb;
     g_sectors_per_cluster := sectors_per_cluster bpb;
     g_bytes_per_sector := bytes_per_sector bpb |}.

Definition cluster_to_lba (g : Fat32Geometry) (cluster : Z) : Z :=
  u32_wrap (first_data_sector g
            + u32_wrap (u32_wrap (cluster - 2) * g_sectors_per_cluster g)).

(** ** Block device (src/src/block_device.rs)

    [read_sectors lba count buf] returns the bytes the device leaves in
    [buf]; the device writes into the caller's slice, so the caller keeps
    the slice's length ([write_slice]). *)

Record BlockDevice := {
  read_sectors : Z -> Z -> list byte -> BlockDeviceError + list byte
}.

(** The contents of a slice [buf] after the device wrote [out] into it. *)
Definition write_slice (buf out : list byte) : list byte :=
  firstn (length buf) (out ++ skipn (length out) buf).

(** ** Filesystem (src/src/filesystem.rs) *)

Record Fat32Fs := Fat32Fs_new { device : BlockDevice; geom : Fat32Geometry }.

Definition mount (d : BlockDevice) (boot_sector : list byte) : Res Fat32Fs :=
  if Z.of_nat (length boot_sector) <? 512 then Err InvalidBootSector
  else if negb (rd8 boot_sector 510 =? 0x55) || negb (rd8 boot_sector 511 =? 0xAA)
  then Err InvalidBootSector
  else
    let bpb := from_sector boot_sector in
    if negb (fat_size_16 bpb =? 0) || (fat_size_32 bpb =? 0) then Err NotFat32
    else Ok (Fat32Fs_new d (from_bpb bpb)).

(** [Fat32Fs::read_fat_entry] *)
Definition read_fat_entry (fs : Fat32Fs) (cluster : Z) : Res FatEntry :=
  if cluster <? 2 then Err (InvalidCluster cluster)
  else
    let g := geom fs in
    let fat_offset := u32_wrap (cluster * 4) in
    if g_bytes_per_sector g =? 0 then Panic (* division by zero *)
    else
      let fat_sector := u32_wrap (fat_start_lba g + fat_offset / g_bytes_per_sector g) in
      let entry_offset := fat_offset mod g_bytes_per_sector g in
      let sector := repeat x00 512 in
      match read_sectors (device fs) fat_sector 1 sector with
      | inl e => Err (fat32_error_from e)
      | inr out =>
          let sector := write_slice sector out in
          (* sector[entry_offset] .. sector[entry_offset + 3] *)
          if 512 <=? entry_offset + 3 then Panic
          else Ok (FatEntry_new (Z.land (le32 sector entry_offset) 0x0FFFFFFF))
      end.

Definition cluster_size_of (g : Fat32Geometry) : Z :=
  u32_wrap (g_sectors_per_cluster g * g_bytes_per_sector g).

(** [Fat32Fs::read_cluster]: returns the new contents of [buf]. *)
Definition read_cluster (fs : Fat32Fs) (cluster : Z) (buf : list byte) : Res (list byte) :=
  if cluster <? 2 then Err (InvalidCluster cluster)
  else
    let g := geom fs in
    let cluster_size := cluster_size_of g in
    if Z.of_nat (length buf) <? cluster_size then Err BufferTooSmall
    else
      let lba := cluster_to_lba g cluster in
      match read_sectors (device fs) lba (g_sectors_per_cluster g) buf with
      | inl e => Err (fat32_error_from e)
      | inr out => Ok (write_slice buf out)
      end.

Definition MAX_CLUSTERS : Z := 100000.

Section ClusterChain.

(** The [FnMut(u32, &[u8]) -> Result<()>] visitor, with its own state. *)
Variable St : Type.
Variable callback : St -> Z -> list byte -> St * Res unit.
Variable fs : Fat32Fs.

Let cluster_size := Z.to_nat (cluster_size_of (geom fs)).

(** The [loop] of [read_cluster_chain]; [fuel] is [MAX_CLUSTERS - cluster_count],
    so the [O] branch is never taken before the guard fires. *)
Fixpoint chain_loop (fuel : nat) (cluster_count current_cluster : Z)
    (buf : list byte) (s : St) : St * Res unit :=
  if MAX_CLUSTERS <=? cluster_count then (s, Err (InvalidCluster current_cluster))
  else
    match fuel with
    | O => (s, Err (InvalidCluster current_cluster))
    | S fuel' =>
        match read_cluster fs current_cluster (firstn cluster_size buf) with
        | Err e => (s, Err e)
        | Panic => (s, Panic)
        | Ok chunk =>
            let buf := chunk ++ skipn cluster_size buf in
            let (s, r) := callback s current_cluster chunk in
            match r with
            | Err e => (s, Err e)
            | Panic => (s, Panic)
            | Ok _ =>
                match read_fat_entry fs current_cluster with
                | Err e => (s, Err e)
                | Panic => (s, Panic)
                | Ok fat_entry =>
                    if is_end fat_entry then (s, Ok tt)
                    else
                      match next_cluster fat_entry with
                      | Some next => chain_loop fuel' (cluster_count + 1) next buf s
                      | None => (s, Ok tt)
                      end
                end
            end
        end
    end.

(** [Fat32Fs::read_cluster_chain] *)
Definition read_cluster_chain (start_cluster : Z) (s : St) : St * Res unit :=
  let buf := repeat x00 4096 in
  if Z.of_nat (length buf) <? cluster_size_of (geom fs) then (s, Err BufferTooSmall)
  else chain_loop (Z.to_nat MAX_CLUSTERS) 0 start_cluster buf s.

End ClusterChain.

(** The raw 32-bit word the device delivers for the FAT slot of [cluster]
    in [read_fat_entry]: the little-endian bytes at
    [cluster * 4 % bytes_per_sector] of the sector it reads ([None] when
    the division or the read fails). *)
Definition fat_slot (fs : Fat32Fs) (cluster : Z) : option Z :=
  let g := geom fs in
  let fat_offset := u32_wrap (cluster * 4) in
  if g_bytes_per_sector g =? 0 then None
  else
    let fat_sector := u32_wrap (fat_start_lba g + fat_offset / g_bytes_per_sector g) in
    let sector := repeat x00 512 in
    match read_sectors (device fs) fat_sector 1 sector with
    | inl _ => None
    | inr out => Some (le32 (write_slice sector out) (fat_offset mod g_bytes_per_sector g))
    end.

(** ** Directory entries (src/src/dir_entry.rs) *)

Record DirectoryEntryRaw := {
  name : list byte;
  attributes : Z;
  reserved : Z;
  creation_time_tenth : Z;
  creation_time : Z;
  creation_date : Z;
  last_access_date : Z;
  first_cluster_high : Z;
  write_time : Z;
  write_date : Z;
  first_cluster_low : Z;
  file_size : Z
}.

(** The packed 32-byte record overlaid at byte [off] of [buf]. *)
Definition entry_at (buf : list byte) (off : Z) : DirectoryEntryRaw := {|
  name := firstn 11 (skipn (Z.to_nat off) buf);
  attributes := rd8 buf (off + 11);
  reserved := rd8 buf (off + 12);
  creation_time_tenth := rd8 buf (off + 13);
  creation_time := le16 buf (off + 14);
  creation_date := le16 buf (off + 16);
  last_access_date := le16 buf (off + 18);
  first_cluster_high := le16 buf (off + 20);
  write_time := le16 buf (off + 22);
  write_date := le16 buf (off + 24);
  first_cluster_low := le16 buf (off + 26);
  file_size := le32 buf (off + 28)
|}.

Definition name0 (e : DirectoryEntryRaw) : Z := rd8 (name e) 0.

Definition is_unused (e : DirectoryEntryRaw) : bool :=
  (name0 e =? 0x00) || (name0 e =? 0xE5).

Definition is_dir (e : DirectoryEntryRaw) : bool :=
  negb (Z.land (attributes e) 0x10 =? 0).

Definition first_cluster (e : DirectoryEntryRaw) : Z :=
  Z.lor (Z.shiftl (first_cluster_high e) 16) (first_cluster_low e).

(** ** Directory iterator (src/src/filesystem.rs, [DirectoryIterator]) *)

Record DirectoryIterator := {
  it_fs : Fat32Fs;
  it_cluster : Z;
  it_offset : Z;
  it_buffer : list byte;
  it_done : bool
}.

Definition set_done (it : DirectoryIterator) : DirectoryIterator :=
  {| it_fs := it_fs it; it_cluster := it_cluster it; it_offset := it_offset it;
     it_buffer := it_buffer it; it_done := true |}.

Definition set_pos (it : DirectoryIterator) (cluster offset : Z) : DirectoryIterator :=
  {| it_fs := it_fs it; it_cluster := cluster; it_offset := offset;
     it_buffer := it_buffer it; it_done := it_done it |}.

Definition set_buffer (it : DirectoryIterator) (b : list byte) : DirectoryIterator :=
  {| it_fs := it_fs it; it_cluster := it_cluster it; it_offset := it_offset it;
     it_buffer := b; it_done := it_done it |}.

(** [fs.read_cluster(c, &mut buffer[..cluster_size])] on the 4096-byte buffer:
    slicing past 4096 panics. *)
Definition load_cluster (fs : Fat32Fs) (c : Z) (buffer : list byte) : Res (list byte) :=
  let cluster_size := cluster_size_of (geom fs) in
  if Z.of_nat (length buffer) <? cluster_size then Panic
  else
    let n := Z.to_nat cluster_size in
    match read_cluster fs c (firstn n buffer) with
    | Ok chunk => Ok (chunk ++ skipn n buffer)
    | Err e => Err e
    | Panic => Panic
    end.

(** [DirectoryIterator::new] *)
Definition DirectoryIterator_new (fs : Fat32Fs) (start_cluster : Z) : Res DirectoryIterator :=
  let buffer := repeat x00 4096 in
  match load_cluster fs start_cluster buffer with
  | Ok b => Ok {| it_fs := fs; it_cluster := start_cluster; it_offset := 0;
                 it_buffer := b; it_done := false |}
  | Err e => Err e
  | Panic => Panic
  end.

(** [Fat32Fs::read_root_dir] *)
Definition read_root_dir (fs : Fat32Fs) : Res DirectoryIterator :=
  DirectoryIterator_new fs (g_root_cluster (geom fs)).

(** The [if self.offset >= 4096 { ... }] block of [next_entry]:
    [Ok true] continues with the entry, [Ok false] is [return Ok(None)]. *)
Definition advance (it : DirectoryIterator) : DirectoryIterator * Res bool :=
  let fs := it_fs it in
  match read_fat_entry fs (it_cluster it) with
  | Err e => (it, Err e)
  | Panic => (it, Panic)
  | Ok fat_entry =>
      if is_end fat_entry then (set_done it, Ok false)
      else
        match next_cluster fat_entry with
        | Some next =>
            let it := set_pos it next 0 in
            match load_cluster fs next (it_buffer it) with
            | Ok b => (set_buffer it b, Ok true)
            | Err e => (it, Err e)
            | Panic => (it, Panic)
            end
        | None => (set_done it, Ok false)
        end
  end.

(** The [loop] of [next_entry]; [fuel] bounds the number of rounds
    ([None]: out of fuel). *)
Fixpoint next_loop (fuel : nat) (it : DirectoryIterator)
    : option (DirectoryIterator * Res (option DirectoryEntryRaw)) :=
  match fuel with
  | O => None
  | S fuel' =>
      let (it, r) := if 4096 <=? it_offset it then advance it else (it, Ok true) in
      match r with
      | Err e => Some (it, Err e)
      | Panic => Some (it, Panic)
      | Ok false => Some (it, Ok None)
      | Ok true =>
          let entry := entry_at (it_buffer it) (it_offset it) in
          let it := set_pos it (it_cluster it) (it_offset it + 32) in
          if name0 entry =? 0x00 then Some (set_done it, Ok None)
          else if is_unused entry || (attributes entry =? 0x08) then next_loop fuel' it
          else Some (it, Ok (Some entry))
      end
  end.

(** [DirectoryIterator::next_entry] *)
Definition next_entry (fuel : nat) (it : DirectoryIterator)
    : option (DirectoryIterator * Res (option DirectoryEntryRaw)) :=
  if it_done it then Some (it, Ok None) else next_loop fuel it.

(** Calling [next_entry] until it returns [Ok(None)] or an error, at most
    [n] times: the entries yielded, and how the iteration ended. *)
Fixpoint collect_entries (n fuel : nat) (it : DirectoryIterator)
    : option (list DirectoryEntryRaw * Res unit) :=
  match n with
  | O => None
  | S n' =>
      match next_entry fuel it with
      | None => None
      | Some (it', Ok (Some e)) =>
          match collect_entries n' fuel it' with
          | Some (es, r) => Some (e :: es, r)
          | None => None
          end
      | Some (_, Ok None) => Some ([], Ok tt)
      | Some (_, Err e) => Some ([], Err e)
      | Some (_, Panic) => Some ([], Panic)
      end
  end.

(** ** Bump allocator (src/src/allocator.rs)

    [usize] is 64 bits wide; [alloc] returns the new heap and the pointer,
    0 standing for [ptr::null_mut()]. The address of [HEAP_MEMORY] is the
    parameter [heap_memory]. *)

Module Allocator.

Definition usize_wrap (z : Z) : Z := z mod 2 ^ 64.

(** [!x] on a [usize]. *)
Definition usize_not (x : Z) : Z := Z.land (Z.lnot x) (Z.ones 64).

(** [usize::saturating_add] *)
Definition saturating_add (a b : Z) : Z := Z.min (a + b) (2 ^ 64 - 1).

(** [align_up]: [(addr + align - 1) & !(align - 1)], wrapping as a
    release build does. *)
Definition align_up (addr align : Z) : Z :=
  Z.land (usize_wrap (addr + align - 1)) (usize_not (usize_wrap (align - 1))).

Record Heap := { start : Z; end_ : Z; next : Z }.

(** The two fields of [core::alloc::Layout] the allocator reads. *)
Record Layout := Layout_from_size_align { size : Z; align : Z }.

(** [BumpAllocator::empty] *)
Definition empty : Heap := {| start := 0; end_ := 0; next := 0 |}.

(** [BumpAllocator::init] *)
Definition init (h : Heap) (heap_start heap_size : Z) : Heap :=
  {| start := heap_start; end_ := usize_wrap (heap_start + heap_size);
     next := heap_start |}.

(** The lazy initialisation at the top of [alloc]. *)
Definition lazy_init (heap_memory : Z) (h : Heap) : Heap :=
  if start h =? 0 then init h heap_memory 65536 else h.

(** [<BumpAllocator as GlobalAlloc>::alloc] *)
Definition alloc (heap_memory : Z) (h : Heap) (layout : Layout) : Heap * Z :=
  let h := lazy_init heap_memory h in
  let alloc_start := align_up (next h) (align layout) in
  let alloc_end := saturating_add alloc_start (size layout) in
  if end_ h <? alloc_end then (h, 0)
  else ({| start := start h; end_ := end_ h; next := alloc_end |}, alloc_start).

(** Calling [alloc] on each layout in turn: the final heap and the
    pointers returned. *)
Fixpoint alloc_all (heap_memory : Z) (h : Heap) (ls : list Layout) : Heap * list Z :=
  match ls with
  | [] => (h, [])
  | l :: ls' =>
      let (h1, p) := alloc heap_memory h l in
      let (h2, ps) := alloc_all heap_memory h1 ls' in (h2, p :: ps)
  end.

(** The blocks [(pointer, size)] of the non-null results. *)
Fixpoint granted (ls : list Layout) (ps : list Z) : list (Z * Z) :=
  match ls, ps with
  | l :: ls', p :: ps' =>
      if p =? 0 then granted ls' ps' else (p, size l) :: granted ls' ps'
  | _, _ => []
  end.

(** The blocks [bs] lie in order, without overlap, between [lo] and [hi]. *)
Fixpoint blocks_within (lo : Z) (bs : list (Z * Z)) (hi : Z) : Prop :=
  match bs with
  | [] => lo <= hi
  | (p, n) :: bs' => lo <= p /\ blocks_within (p + n) bs' hi
  end.

(** An initialised heap: [0 < start <= next <= end] in the address space. *)
Definition heap_wf (h : Heap) : Prop :=
  0 < start h <= next h /\ next h <= end_ h < 2 ^ 64.

(** A layout as [Layout] guarantees (power-of-two alignment), whose
    alignment fits above the heap's end without wrapping. *)
Definition layout_fits (heap_end : Z) (l : Layout) : Prop :=
  (exists k, 0 <= k /\ align l = 2 ^ k) /\ 0 <= size l /\ heap_end + align l < 2 ^ 64.

End Allocator.
Import Allocator.

(** ** Concrete volumes used by the examples and witnesses below *)

Module Fixtures.

Definition byte_of (z : Z) : byte :=
  match Byte.of_N (Z.to_N (z mod 256)) with Some b => b | None => x00 end.

Fixpoint le_bytes (n : nat) (z : Z) : list byte :=
  match n with
  | O => []
  | S n' => byte_of z :: le_bytes n' (z / 256)
  end.

(** Overwrite the bytes of [l] from index [i] with [v]. *)
Definition put (l : list byte) (i : nat) (v : list byte) : list byte :=
  firstn i l ++ v ++ skipn (i + length v) l.

(** A 512-byte boot sector with the given BPB fields and signature [sig]. *)
Definition mk_boot_sector (bps spc reserved nfats fat16 fat32 root : Z)
    (sig : list byte) : list byte :=
  let s := repeat x00 512 in
  let s := put s 11 (le_bytes 2 bps) in
  let s := put s 13 (le_bytes 1 spc) in
  let s := put s 14 (le_bytes 2 reserved) in
  let s := put s 16 (le_bytes 1 nfats) in
  let s := put s 22 (le_bytes 2 fat16) in
  let s := put s 36 (le_bytes 4 fat32) in
  let s := put s 44 (le_bytes 4 root) in
  put s 510 sig.

Definition sig_ok : list byte := [x55; xaa].

(** The S3 geometry of the spec: 512-byte sectors, 32 reserved sectors,
    two FATs of 1009 sectors, with [spc] sectors per cluster. *)
Definition s3_boot (spc root : Z) : list byte :=
  mk_boot_sector 512 spc 32 2 0 1009 root sig_ok.

(** A device serving the sectors listed by [f], failing elsewhere. *)
Definition table_device (f : Z -> option (list byte)) : BlockDevice :=
  {| read_sectors := fun lba _ _ =>
       match f lba with Some d => inr d | None => inl BD_OutOfBounds end |}.

(** A FAT sector with the given (cluster, raw value) slots. *)
Definition fat_sector (slots : list (Z * Z)) : list byte :=
  fold_left (fun s cv => put s (Z.to_nat (4 * fst cv)) (le_bytes 4 (snd cv)))
            slots (repeat x00 512).

(** A 32-byte short-name entry whose name starts with [first]. *)
Definition dirent (first : byte) (attr : Z) : list byte :=
  first :: repeat x20 10 ++ [byte_of attr] ++ repeat x00 20.

Definition valid_file : list byte := dirent x41 0x20.
Definition deleted_file : list byte := dirent xe5 0x20.

Fixpoint rep (n : nat) (l : list byte) : list byte :=
  match n with O => [] | S n' => l ++ rep n' l end.

(** S6: directory chain 100 -> 101 -> EOC, 4096-byte clusters
    (cluster 100 at LBA 2834, cluster 101 at LBA 2842, FAT at LBA 32). *)
Definition s6_cluster100 : list byte :=
  rep 64 valid_file ++ rep 63 deleted_file ++ valid_file.
Definition s6_cluster101 : list byte :=
  valid_file ++ repeat x00 (4096 - 32).

Definition s6_device : BlockDevice :=
  table_device (fun lba =>
    if lba =? 32 then Some (fat_sector [(100, 101); (101, 0x0FFFFFFF)])
    else if lba =? 2834 then Some s6_cluster100
    else if lba =? 2842 then Some s6_cluster101
    else None).

Definition s6_boot : list byte := s3_boot 8 100.

(** The same shape of directory on 512-byte clusters: chain 2 -> 3 -> EOC,
    cluster 2 (LBA 2050) full of 16 files, cluster 3 (LBA 2051) holding one
    file then the terminator. *)
Definition small_device : BlockDevice :=
  table_device (fun lba =>
    if lba =? 32 then Some (fat_sector [(2, 3); (3, 0x0FFFFFFF)])
    else if lba =? 2050 then Some (rep 16 valid_file)
    else if lba =? 2051 then Some (valid_file ++ repeat x00 (512 - 32))
    else None).

Definition small_boot : list byte := s3_boot 1 2.

(** A device every read of which succeeds with 512 zero bytes. *)
Definition zero_device : BlockDevice :=
  {| read_sectors := fun _ _ _ => inr (repeat x00 512) |}.

(** A volume with the S3 geometry whose FAT sector holds the raw bytes
    [slot] in the slot of cluster 2. *)
Definition slot_fs (slot : list byte) : Fat32Fs :=
  Fat32Fs_new
    (table_device (fun lba => if lba =? 32 then Some (put (repeat x00 512) 8 slot) else None))
    (from_bpb (from_sector (s3_boot 8 2))).

(** A root directory (cluster 2, LBA 2050) holding a volume label with the
    archive bit (attribute 0x28), then a long-name fragment (attribute
    0x0F), then the terminator. *)
Definition label_lfn_device : BlockDevice :=
  table_device (fun lba =>
    if lba =? 2050 then Some (dirent x41 0x28 ++ dirent x41 0x0F ++ repeat x00 (4096 - 64))
    else None).

(** The S6 volume, and the iterator [read_root_dir] opens on it. *)
Definition s6_fs : Fat32Fs := Fat32Fs_new s6_device (from_bpb (from_sector s6_boot)).

Definition s6_root_iter : DirectoryIterator :=
  {| it_fs := s6_fs; it_cluster := 100; it_offset := 0;
     it_buffer := s6_cluster100; it_done := false |}.

(** A volume with 512-byte clusters whose FAT maps cluster 2 to itself,
    on a device where every read succeeds. *)
Definition cycle_fs : Fat32Fs :=
  Fat32Fs_new
    {| read_sectors := fun _ _ _ => inr (fat_sector [(2, 2)]) |}
    (from_bpb (from_sector (s3_boot 1 2))).

(** Iterating a directory opened on a freshly mounted volume. *)
Definition list_root (d : BlockDevice) (bs : list byte) : option (list DirectoryEntryRaw * Res unit) :=
  match mount d bs with
  | Ok fs =>
      match read_root_dir fs with
      | Ok it => collect_entries 1000 1000 it
      | Err e => Some ([], Err e)
      | Panic => Some ([], Panic)
      end
  | Err e => Some ([], Err e)
  | Panic => Some ([], Panic)
  end.

End Fixtures.
Import Fixtures.

(** The spec's [is_long_name] accessor (spec section 4.5; dir_entry.rs has
    none): attribute low nibble equal to 0x0F. *)
Definition spec_is_long_name (e : DirectoryEntryRaw) : bool :=
  Z.land (attributes e) 0x0F =? 0x0F.

(** The spec's [is_volume_label] accessor (dir_entry.rs has none either):
    attribute bit 0x08 set, the entry not being a long-name fragment. *)
Definition spec_is_volume_label (e : DirectoryEntryRaw) : bool :=
  negb (Z.land (attributes e) 0x08 =? 0) && negb (spec_is_long_name e).

(** A visitor that counts its calls, around [cb]. *)
Definition counting {St : Type} (cb : St -> Z -> list byte -> St * Res unit)
    (ns : Z * St) (c : Z) (b : list byte) : (Z * St) * Res unit :=
  let (s', r) := cb (snd ns) c b in ((fst ns + 1, s'), r).

(** The FAT links the clusters [c :: rest] in this order, the last entry
    naming no next cluster (end of chain, free or bad). *)
Fixpoint fat_chain (fs : Fat32Fs) (c : Z) (rest : list Z) : Prop :=
  match rest with
  | [] => exists e, read_fat_entry fs c = Ok e /\ next_cluster e = None
  | c' :: rest' =>
      (exists e, read_fat_entry fs c = Ok e /\ next_cluster e = Some c') /\
      fat_chain fs c' rest'
  end.

(** A visitor recording the clusters it is called on. *)
Definition record_cluster (s : list Z) (c : Z) (_ : list byte) : list Z * Res unit :=
  (s ++ [c], Ok tt).

(** The iterator's buffer is its 4096 bytes and its offset a multiple of 32
    within them. *)
Definition iter_inv (it : DirectoryIterator) : Prop :=
  length (it_buffer it) = 4096%nat /\ 0 <= it_offset it <= 4096 /\ it_offset it mod 32 = 0.

(** ** Helper lemmas *)

Lemma byte_val_range (b : byte) : 0 <= byte_val b <= 255.
Proof.
  unfold byte_val. pose proof (Byte.to_N_bounded b). lia.
Qed.

Lemma rd8_range (s : list byte) (i : Z) : 0 <= rd8 s i <= 255.
Proof. apply byte_val_range. Qed.

Lemma le16_range (s : list byte) (i : Z) : 0 <= le16 s i < 2 ^ 16.
Proof.
  unfold le16. pose proof (rd8_range s i). pose proof (rd8_range s (i + 1)). lia.
Qed.

Lemma le32_range (s : list byte) (i : Z) : 0 <= le32 s i < 2 ^ 32.
Proof.
  unfold le32.
  pose proof (rd8_range s i). pose proof (rd8_range s (i + 1)).
  pose proof (rd8_range s (i + 2)). pose proof (rd8_range s (i + 3)). lia.
Qed.

Lemma u32_wrap_small (z : Z) : 0 <= z < 2 ^ 32 -> u32_wrap z = z.
Proof. intros H. unfold u32_wrap. apply Z.mod_small. exact H. Qed.

Lemma u32_wrap_range (z : Z) : 0 <= u32_wrap z < 2 ^ 32.
Proof. unfold u32_wrap. apply Z.mod_pos_bound. lia. Qed.

Lemma length_write_slice (buf out : list byte) :
  length (write_slice buf out) = length buf.
Proof.
  unfold write_slice. rewrite length_firstn, length_app, length_skipn. lia.
Qed.

(** Case analysis on the boolean tests of a goal. *)
Ltac split_tests :=
  repeat match goal with
  | |- context [?a =? ?b] => destruct (Z.eqb_spec a b)
  | |- context [?a <? ?b] => destruct (Z.ltb_spec a b)
  | |- context [?a <=? ?b] => destruct (Z.leb_spec a b)
  end; simpl.

(** ** Claims *)

(** C2 (as corrected): [FatEntry::next_cluster] returns the masked value
    exactly when the entry is neither free (0), bad (0x0FFFFFF7) nor
    end-of-chain (>= 0x0FFFFFF8), and [None] otherwise; value 1 is not
    singled out, and yields [Some 1]. *)
Theorem next_cluster_classification (v : Z) :
  (next_cluster (FatEntry_new v) = Some (Z.land v 0x0FFFFFFF) <->
   v <> 0 /\ v <> 0x0FFFFFF7 /\ v < 0x0FFFFFF8) /\
  (next_cluster (FatEntry_new v) = None <->
   v = 0 \/ v = 0x0FFFFFF7 \/ 0x0FFFFFF8 <= v) /\
  next_cluster (FatEntry_new 1) = Some 1.
Proof.
  unfold next_cluster, is_free, is_bad, is_end; simpl.
  split_tests; repeat split; intros; try discriminate; try lia; reflexivity.
Qed.

(** C2 (counterexample): the entry value 1 is not treated as "no next
    cluster": [next_cluster] returns [Some 1] on it. *)
Lemma next_cluster_reserved_one :
  ~ (forall v, next_cluster (FatEntry_new v) = Some (Z.land v 0x0FFFFFFF) <->
       v <> 0 /\ v <> 1 /\ v <> 0x0FFFFFF7 /\ v < 0x0FFFFFF8).
Proof.
  intros H. destruct (proj1 (H 1) eq_refl) as [_ [H1 _]]. apply H1. reflexivity.
Qed.

(** Inverting a successful [mount]. *)
Lemma mount_ok_inv (d : BlockDevice) (bs : list byte) (fs : Fat32Fs) :
  mount d bs = Ok fs ->
  512 <= Z.of_nat (length bs) /\ rd8 bs 510 = 0x55 /\ rd8 bs 511 = 0xAA /\
  fat_size_16 (from_sector bs) = 0 /\ fat_size_32 (from_sector bs) <> 0 /\
  fs = Fat32Fs_new d (from_bpb (from_sector bs)).
Proof.
  unfold mount. split_tests; intros Hx; try discriminate.
  injection Hx as <-. repeat split; auto; lia.
Qed.

(** C8: [mount] fails with [InvalidBootSector] exactly on slices shorter
    than 512 bytes or without the 0x55 0xAA signature at 510..511 (so on
    512 zero bytes); past those checks it fails with [NotFat32] exactly when
    [fat_size_16 != 0] or [fat_size_32 == 0], and succeeds otherwise. *)
Theorem mount_error_cases (d : BlockDevice) (bs : list byte) :
  (mount d bs = Err InvalidBootSector <->
   ~ (512 <= Z.of_nat (length bs) /\ rd8 bs 510 = 0x55 /\ rd8 bs 511 = 0xAA)) /\
  (mount d bs = Err NotFat32 <->
   (512 <= Z.of_nat (length bs) /\ rd8 bs 510 = 0x55 /\ rd8 bs 511 = 0xAA) /\
   (fat_size_16 (from_sector bs) <> 0 \/ fat_size_32 (from_sector bs) = 0)) /\
  ((exists fs, mount d bs = Ok fs) <->
   (512 <= Z.of_nat (length bs) /\ rd8 bs 510 = 0x55 /\ rd8 bs 511 = 0xAA) /\
   fat_size_16 (from_sector bs) = 0 /\ fat_size_32 (from_sector bs) <> 0) /\
  mount d (repeat x00 512) = Err InvalidBootSector.
Proof.
  split; [| split; [| split]].
  - unfold mount. split_tests; split; intros Hx; try discriminate;
      try reflexivity; try lia; exfalso; apply Hx; repeat split; auto; lia.
  - unfold mount. split_tests; split; intros Hx;
      first [discriminate | reflexivity | (exfalso; intuition lia) | intuition lia].
  - split.
    + intros [fs Hm]. apply mount_ok_inv in Hm. tauto.
    + unfold mount. split_tests; intros Hx; first [(exfalso; intuition lia) | eauto].
  - reflexivity.
Qed.

(** C4 (as corrected): [mount] does not check [sectors_per_cluster] nor
    [root_cluster]: it accepts exactly the slices of at least 512 bytes with
    the signature, [fat_size_16 == 0] and [fat_size_32 != 0], and the
    geometry then copies both fields unchanged from the BPB. *)
Theorem mount_geometry_unchecked (d : BlockDevice) (bs : list byte) :
  (exists fs, mount d bs = Ok fs /\
     g_sectors_per_cluster (geom fs) = sectors_per_cluster (from_sector bs) /\
     g_root_cluster (geom fs) = root_cluster (from_sector bs)) <->
  (512 <= Z.of_nat (length bs) /\ rd8 bs 510 = 0x55 /\ rd8 bs 511 = 0xAA) /\
  fat_size_16 (from_sector bs) = 0 /\ fat_size_32 (from_sector bs) <> 0.
Proof.
  split.
  - intros [fs [Hm _]]. apply mount_ok_inv in Hm. tauto.
  - intros Hs. unfold mount. split_tests; try (exfalso; intuition lia).
    eexists; repeat split.
Qed.

(** C4 (counterexample): a boot sector with [sectors_per_cluster = 0] and
    [root_cluster = 0] is mounted, not rejected. *)
Lemma mount_accepts_zero_spc_and_root :
  exists fs, mount zero_device (mk_boot_sector 512 0 32 2 0 1009 0 sig_ok) = Ok fs /\
    g_sectors_per_cluster (geom fs) = 0 /\ g_root_cluster (geom fs) = 0.
Proof. eexists. split; [vm_compute; reflexivity | split; reflexivity]. Qed.

(** C6 (as corrected): on a mounted volume ([fat_size_16 = 0], so the
    effective FAT size is [fat_size_32]) and a [u32] cluster [c >= 2],
    [cluster_to_lba c] is [first_data_sector + (c - 2) * sectors_per_cluster]
    in wrapping [u32] arithmetic, with [first_data_sector] the wrapped
    [reserved_sector_count + num_fats * fat_size_32]; both are exact when the
    sum fits in 32 bits, and the S3 geometry gives 2050, 2050, 2058, 2114. *)
Theorem cluster_to_lba_mounted (d : BlockDevice) (bs : list byte) (fs : Fat32Fs) (c : Z)
  (Hm : mount d bs = Ok fs) (Hc : 2 <= c < 2 ^ 32) :
  let bpb := from_sector bs in
  fat_size_16 bpb = 0 /\
  first_data_sector (geom fs) =
    u32_wrap (reserved_sector_count bpb + u32_wrap (num_fats bpb * fat_size_32 bpb)) /\
  cluster_to_lba (geom fs) c =
    u32_wrap (first_data_sector (geom fs) + (c - 2) * sectors_per_cluster bpb) /\
  (reserved_sector_count bpb + num_fats bpb * fat_size_32 bpb
     + (c - 2) * sectors_per_cluster bpb < 2 ^ 32 ->
   first_data_sector (geom fs) = reserved_sector_count bpb + num_fats bpb * fat_size_32 bpb /\
   cluster_to_lba (geom fs) c =
     reserved_sector_count bpb + num_fats bpb * fat_size_32 bpb
     + (c - 2) * sectors_per_cluster bpb) /\
  (exists fs3, mount d (s3_boot 8 2) = Ok fs3 /\
     first_data_sector (geom fs3) = 2050 /\ cluster_to_lba (geom fs3) 2 = 2050 /\
     cluster_to_lba (geom fs3) 3 = 2058 /\ cluster_to_lba (geom fs3) 10 = 2114).
Proof.
  intros bpb. subst bpb.
  apply mount_ok_inv in Hm as (_ & _ & _ & H16 & _ & ->).
  assert (Hfds : first_data_sector (from_bpb (from_sector bs)) =
    u32_wrap (reserved_sector_count (from_sector bs)
              + u32_wrap (num_fats (from_sector bs) * fat_size_32 (from_sector bs)))).
  { unfold from_bpb. cbn [first_data_sector]. rewrite H16. reflexivity. }
  assert (Hlba : cluster_to_lba (from_bpb (from_sector bs)) c =
    u32_wrap (first_data_sector (from_bpb (from_sector bs))
              + (c - 2) * sectors_per_cluster (from_sector bs))).
  { unfold cluster_to_lba. rewrite (u32_wrap_small (c - 2)) by lia.
    unfold u32_wrap. rewrite Z.add_mod_idemp_r by lia. reflexivity. }
  pose proof (rd8_range bs 13). pose proof (rd8_range bs 16).
  pose proof (le16_range bs 14). pose proof (le32_range bs 36).
  cbn [geom]. split; [exact H16 | split; [exact Hfds | split; [exact Hlba | split]]].
  - intros Hfit. cbn [from_sector reserved_sector_count num_fats fat_size_32
                      sectors_per_cluster] in *.
    assert (Hf : first_data_sector (from_bpb (from_sector bs)) =
                 le16 bs 14 + rd8 bs 16 * le32 bs 36).
    { rewrite Hfds. rewrite (u32_wrap_small (rd8 bs 16 * le32 bs 36)) by nia.
      apply u32_wrap_small. nia. }
    split; [exact Hf |]. rewrite Hlba, Hf. apply u32_wrap_small. nia.
  - eexists. split; [vm_compute; reflexivity | repeat split; vm_compute; reflexivity].
Qed.

(** C6 (counterexample): on the S3 geometry the equation fails for the
    cluster 0x20000002, whose [(c - 2) * 8] overflows [u32]. *)
Lemma cluster_to_lba_overflow :
  exists fs, mount zero_device (s3_boot 8 2) = Ok fs /\
    cluster_to_lba (geom fs) 0x20000002 <>
    first_data_sector (geom fs) + (0x20000002 - 2) * g_sectors_per_cluster (geom fs).
Proof. eexists. split; [vm_compute; reflexivity | vm_compute; discriminate]. Qed.

(** Inverting a successful [read_fat_entry]. *)
Lemma read_fat_entry_inv (fs : Fat32Fs) (c : Z) (e : FatEntry) :
  read_fat_entry fs c = Ok e ->
  exists w, fat_slot fs c = Some w /\ 0 <= w < 2 ^ 32 /\
            e = FatEntry_new (Z.land w 0x0FFFFFFF).
Proof.
  unfold read_fat_entry, fat_slot.
  destruct (c <? 2); [discriminate |].
  destruct (g_bytes_per_sector (geom fs) =? 0); [discriminate |].
  destruct (read_sectors _ _ _ _) as [err | out]; [discriminate |].
  destruct (512 <=? _); [discriminate |].
  intros Hx. injection Hx as <-. eexists. split; [reflexivity |].
  split; [apply le32_range | reflexivity].
Qed.

(** C7: an entry returned by [read_fat_entry] is [FatEntry::new(w & 0x0FFFFFFF)]
    for the raw slot word [w] the device delivered, so it (and [is_free],
    [is_bad], [is_end], [next_cluster] on it) depends on [w] only through
    its low 28 bits; the slots [05 00 00 F0] and [F8 FF FF FF] give
    [next_cluster = Some 5], resp. [is_end] and no next cluster. *)
Theorem read_fat_entry_masked (fs : Fat32Fs) (c : Z) (e : FatEntry)
  (H : read_fat_entry fs c = Ok e) :
  (exists w, fat_slot fs c = Some w /\ 0 <= w < 2 ^ 32 /\
             e = FatEntry_new (Z.land w 0x0FFFFFFF)) /\
  (forall fs' e', read_fat_entry fs' c = Ok e' ->
     (exists w w', fat_slot fs c = Some w /\ fat_slot fs' c = Some w' /\
                   Z.land w 0x0FFFFFFF = Z.land w' 0x0FFFFFFF) ->
     e' = e) /\
  fat_slot (slot_fs [x05; x00; x00; xf0]) 2 = Some 0xF0000005 /\
  (exists e5, read_fat_entry (slot_fs [x05; x00; x00; xf0]) 2 = Ok e5 /\
              next_cluster e5 = Some 5) /\
  fat_slot (slot_fs [xf8; xff; xff; xff]) 2 = Some 0xFFFFFFF8 /\
  (exists e8, read_fat_entry (slot_fs [xf8; xff; xff; xff]) 2 = Ok e8 /\
              is_end e8 = true /\ next_cluster e8 = None).
Proof.
  pose proof read_fat_entry_inv as Hinv.
  split; [| split; [| split; [| split; [| split]]]].
  - exact (Hinv fs c e H).
  - intros fs' e' H' (w & w' & Hw & Hw' & Heq).
    destruct (Hinv fs c e H) as (w1 & Hw1 & _ & ->).
    destruct (Hinv fs' c e' H') as (w2 & Hw2 & _ & ->).
    rewrite Hw in Hw1. rewrite Hw' in Hw2.
    injection Hw1 as <-. injection Hw2 as <-. rewrite Heq. reflexivity.
  - vm_compute. reflexivity.
  - eexists. split; [vm_compute; reflexivity | vm_compute; reflexivity].
  - vm_compute. reflexivity.
  - eexists. split; [vm_compute; reflexivity | split; vm_compute; reflexivity].
Qed.

(** C10: with [bytes_per_sector = 512], the slot offset [cluster * 4 % 512]
    (in wrapping [u32] arithmetic) is at most 508 for every cluster >= 2,
    so the four reads stay inside the 512-byte stack buffer and
    [read_fat_entry] cannot panic; [mount] does not enforce this: it
    accepts [bytes_per_sector = 1024], on which [read_fat_entry 200] panics. *)
Theorem read_fat_entry_in_bounds (fs : Fat32Fs) (c : Z)
  (Hb : g_bytes_per_sector (geom fs) = 512) (Hc : 2 <= c) :
  u32_wrap (c * 4) mod 512 <= 508 /\
  read_fat_entry fs c <> Panic /\
  (exists fs', mount zero_device (mk_boot_sector 1024 8 32 2 0 1009 2 sig_ok) = Ok fs' /\
     g_bytes_per_sector (geom fs') = 1024 /\ read_fat_entry fs' 200 = Panic).
Proof.
  assert (Hoff : u32_wrap (c * 4) mod 512 <= 508).
  { unfold u32_wrap. rewrite Z.mod_mod_divide by (exists (2 ^ 23); reflexivity).
    replace (c * 4) with (4 * c) by ring.
    change 512 with (4 * 128). rewrite Z.mul_mod_distr_l by lia.
    pose proof (Z.mod_pos_bound c 128). lia. }
  split; [exact Hoff | split].
  - unfold read_fat_entry. rewrite Hb.
    destruct (Z.ltb_spec c 2); [lia |]. cbv zeta.
    change (512 =? 0) with false. cbv iota.
    destruct (read_sectors _ _ _ _); [discriminate |].
    destruct (Z.leb_spec 512 (u32_wrap (c * 4) mod 512 + 3)); [lia | discriminate].
  - eexists. split; [vm_compute; reflexivity | split; vm_compute; reflexivity].
Qed.

(** C1 (code defect): [next_entry] skips only the entries that are
    [is_unused] or whose attribute byte is exactly 0x08: (1) every entry it
    yields passes these two tests, (2) every entry at the current offset of
    the buffer that passes them is yielded by the next call, whatever its
    other attribute bits, and (3) so, on a mounted volume whose root
    directory holds a volume label with the archive bit (0x28) and a
    long-name fragment (0x0F), iterating [read_root_dir] yields both,
    although its own comment says volume labels are skipped and the claim
    says neither is yielded. *)
Theorem next_entry_yields_labels_and_long_names :
  (forall fuel it it' e, next_entry fuel it = Some (it', Ok (Some e)) ->
     is_unused e = false /\ attributes e <> 0x08) /\
  (forall fuel it, it_done it = false -> it_offset it < 4096 ->
     is_unused (entry_at (it_buffer it) (it_offset it)) = false ->
     attributes (entry_at (it_buffer it) (it_offset it)) <> 0x08 ->
     next_entry (S fuel) it =
       Some (set_pos it (it_cluster it) (it_offset it + 32),
             Ok (Some (entry_at (it_buffer it) (it_offset it))))) /\
  (match list_root label_lfn_device (s3_boot 8 2) with
   | Some ([lbl; lfn], Ok tt) =>
       attributes lbl = 0x28 /\ spec_is_volume_label lbl = true /\
       attributes lfn = 0x0F /\ spec_is_long_name lfn = true
   | _ => False
   end).
Proof.
  split; [| split].
  - intros fuel it it' e H.
    unfold next_entry in H. destruct (it_done it); [discriminate |].
    revert it H. induction fuel as [| fuel IH]; intros it H; [discriminate |].
    cbn [next_loop] in H.
    destruct (if 4096 <=? it_offset it then advance it else (it, Ok true)) as [it1 r].
    destruct r as [[|] | |]; try discriminate.
    destruct (Z.eqb_spec (name0 (entry_at (it_buffer it1) (it_offset it1))) 0);
      [discriminate |].
    destruct (is_unused (entry_at (it_buffer it1) (it_offset it1))) eqn:Eu;
      cbn [orb] in H.
    + exact (IH _ H).
    + destruct (Z.eqb_spec (attributes (entry_at (it_buffer it1) (it_offset it1))) 8).
      * exact (IH _ H).
      * injection H as _ <-. split; assumption.
  - intros fuel it Hd Ho Hu Ha.
    unfold next_entry. rewrite Hd. cbn [next_loop].
    destruct (Z.leb_spec 4096 (it_offset it)); [lia |].
    cbn [it_buffer it_offset set_pos].
    assert (Hn : name0 (entry_at (it_buffer it) (it_offset it)) <> 0).
    { intros Hz. unfold is_unused in Hu. rewrite Hz in Hu. discriminate. }
    destruct (Z.eqb_spec (name0 (entry_at (it_buffer it) (it_offset it))) 0); [contradiction |].
    rewrite Hu. destruct (Z.eqb_spec (attributes (entry_at (it_buffer it) (it_offset it))) 8);
      [contradiction | reflexivity].
  - vm_compute. split; [reflexivity | split; [reflexivity | split; reflexivity]].
Qed.

(** C3 (code defect): [next_entry] advances along the chain when the offset
    reaches 4096, not the cluster size.  With 4096-byte clusters the S6
    directory yields its 66 entries; the same layout on 512-byte clusters
    (chain 2 -> 3 -> EOC, 16 files in cluster 2, one file in cluster 3)
    yields only the 16 files of cluster 2: past offset 512 the iterator
    reads the zero bytes left in its buffer as a terminator and never
    consults the FAT. *)
Theorem next_entry_ignores_cluster_size :
  (match list_root s6_device s6_boot with
   | Some (es, Ok tt) => length es = 66%nat
   | _ => False
   end) /\
  (match list_root small_device small_boot with
   | Some (es, Ok tt) => length es = 16%nat
   | _ => False
   end) /\
  (exists fs, mount small_device small_boot = Ok fs /\ cluster_size_of (geom fs) = 512).
Proof.
  split; [vm_compute; reflexivity | split; [vm_compute; reflexivity |]].
  eexists. split; [vm_compute; reflexivity | vm_compute; reflexivity].
Qed.

(** C5 (code defect): on a volume with 8192-byte clusters (16 sectors of
    512 bytes), [read_cluster_chain] fails with [BufferTooSmall], but
    [read_root_dir] panics: [DirectoryIterator::new] slices its 4096-byte
    buffer with [..cluster_size] without the check. *)
Theorem root_dir_panics_on_large_clusters :
  exists fs, mount zero_device (s3_boot 16 2) = Ok fs /\
    cluster_size_of (geom fs) = 8192 /\
    read_root_dir fs = Panic /\
    (forall (St : Type) (cb : St -> Z -> list byte -> St * Res unit) start s,
       read_cluster_chain St cb fs start s = (s, Err BufferTooSmall)).
Proof.
  eexists. split; [vm_compute; reflexivity |].
  split; [vm_compute; reflexivity | split; [vm_compute; reflexivity |]].
  intros St cb start s. unfold read_cluster_chain. rewrite repeat_length.
  reflexivity.
Qed.

(** The guard [cluster_count >= MAX_CLUSTERS] bounds the visitor calls of
    the loop by [MAX_CLUSTERS - cluster_count], whatever the fuel. *)
(** Closing the arithmetic side goals of [chain_loop_calls_bounded]. *)
Ltac close_count := cbv beta iota zeta delta [fst snd]; unfold MAX_CLUSTERS in *; lia.

Lemma chain_loop_calls_bounded (St : Type) (cb : St -> Z -> list byte -> St * Res unit)
    (fs : Fat32Fs) (fuel : nat) :
  forall count cur buf n s,
    fst (fst (chain_loop (Z * St) (counting cb) fs fuel count cur buf (n, s)))
    <= n + Z.max 0 (MAX_CLUSTERS - count).
Proof.
  induction fuel as [| fuel IH]; intros count cur buf n s; cbn [chain_loop].
  - destruct (MAX_CLUSTERS <=? count); close_count.
  - destruct (Z.leb_spec MAX_CLUSTERS count); [close_count |].
    destruct (read_cluster fs cur _) as [chunk | err |]; [| close_count | close_count].
    unfold counting at 1. cbv beta iota zeta delta [fst snd].
    destruct (cb s cur chunk) as [s' r].
    destruct r as [[] | err |]; [| close_count | close_count].
    destruct (read_fat_entry fs cur) as [fe | err |]; [| close_count | close_count].
    destruct (is_end fe); [close_count |].
    destruct (next_cluster fe) as [next |]; [| close_count].
    eapply Z.le_trans; [exact (IH (count + 1) next _ (n + 1) s') |].
    unfold MAX_CLUSTERS in *. lia.
Qed.

Section CyclicChain.

Variable St : Type.
Variable cb : St -> Z -> list byte -> St * Res unit.
Variable fs : Fat32Fs.
Variable P : Z -> Prop.
Hypothesis Hsize : cluster_size_of (geom fs) <= 4096.
Hypothesis Hdev : forall lba n b, exists out, read_sectors (device fs) lba n b = inr out.
Hypothesis Hcb : forall s c b, snd (cb s c b) = Ok tt.
Hypothesis Hcycle : forall c, P c -> 2 <= c /\ exists e c',
  read_fat_entry fs c = Ok e /\ is_end e = false /\ next_cluster e = Some c' /\ P c'.

(** On a chain that stays forever inside [P], the loop only stops through
    its step guard. *)
Lemma chain_loop_cycle (fuel : nat) :
  forall count cur buf s, P cur -> length buf = 4096%nat ->
    exists cur', P cur' /\
      snd (chain_loop St cb fs fuel count cur buf s) = Err (InvalidCluster cur').
Proof.
  pose proof (u32_wrap_range (g_sectors_per_cluster (geom fs) * g_bytes_per_sector (geom fs))) as Hr.
  fold (cluster_size_of (geom fs)) in Hr.
  induction fuel as [| fuel IH]; intros count cur buf s Hp Hlen; cbn [chain_loop].
  - destruct (MAX_CLUSTERS <=? count); exists cur; split; auto.
  - destruct (Z.leb_spec MAX_CLUSTERS count); [exists cur; split; auto |].
    destruct (Hcycle cur Hp) as (H2 & e & c' & He & Hend & Hnext & Hp').
    set (cs := Z.to_nat (cluster_size_of (geom fs))).
    assert (Hcs : length (firstn cs buf) = cs).
    { rewrite length_firstn. subst cs. lia. }
    unfold read_cluster at 1.
    destruct (Z.ltb_spec cur 2); [lia |].
    destruct (Z.ltb_spec (Z.of_nat (length (firstn cs buf))) (cluster_size_of (geom fs)));
      [rewrite Hcs in *; subst cs; lia |].
    destruct (Hdev (cluster_to_lba (geom fs) cur) (g_sectors_per_cluster (geom fs))
                   (firstn cs buf)) as [out Hout].
    cbv zeta. rewrite Hout.
    specialize (Hcb s cur (write_slice (firstn cs buf) out)).
    destruct (cb s cur (write_slice (firstn cs buf) out)) as [s' r].
    cbn [snd] in Hcb. subst r.
    rewrite He, Hend, Hnext.
    apply IH; [exact Hp' |].
    rewrite length_app, length_write_slice, Hcs, length_skipn. subst cs. lia.
Qed.

End CyclicChain.

(** C9: whatever the device, the FAT and the visitor, [read_cluster_chain]
    calls its visitor at most [MAX_CLUSTERS] (100000) times and returns; on
    a cyclic chain (every cluster reached is >= 2 and its FAT entry names a
    next cluster of the cycle), with reads and visitor succeeding and
    clusters of at most 4 KiB, it returns [InvalidCluster] of the cluster
    where the step budget ran out. *)
Theorem read_cluster_chain_step_budget :
  (forall (St : Type) (cb : St -> Z -> list byte -> St * Res unit) fs start s,
     fst (fst (read_cluster_chain (Z * St) (counting cb) fs start (0, s)))
     <= MAX_CLUSTERS) /\
  (forall (St : Type) (cb : St -> Z -> list byte -> St * Res unit) fs start s
          (P : Z -> Prop),
     cluster_size_of (geom fs) <= 4096 ->
     (forall lba n b, exists out, read_sectors (device fs) lba n b = inr out) ->
     (forall s c b, snd (cb s c b) = Ok tt) ->
     (forall c, P c -> 2 <= c /\ exists e c',
        read_fat_entry fs c = Ok e /\ is_end e = false /\
        next_cluster e = Some c' /\ P c') ->
     P start ->
     exists cur, P cur /\
       snd (read_cluster_chain St cb fs start s) = Err (InvalidCluster cur)).
Proof.
  split.
  - intros St cb fs start s. unfold read_cluster_chain.
    destruct (_ <? _); [simpl; unfold MAX_CLUSTERS; lia |].
    pose proof (chain_loop_calls_bounded St cb fs (Z.to_nat MAX_CLUSTERS) 0 start
                  (repeat x00 4096) 0 s).
    unfold MAX_CLUSTERS in *. lia.
  - intros St cb fs start s P Hsize Hdev Hcb Hcycle Hp.
    unfold read_cluster_chain. rewrite repeat_length.
    destruct (Z.ltb_spec (Z.of_nat 4096) (cluster_size_of (geom fs))); [lia |].
    apply (chain_loop_cycle St cb fs P Hsize Hdev Hcb Hcycle); [exact Hp |].
    apply repeat_length.
Qed.

(** ** Further properties of the code *)

Lemma align_up_pow2 (addr k : Z) :
  0 <= addr -> 0 <= k < 64 -> addr + 2 ^ k - 1 < 2 ^ 64 ->
  align_up addr (2 ^ k) = (addr + 2 ^ k - 1) / 2 ^ k * 2 ^ k.
Proof.
  intros Ha Hk Hov.
  assert (Hp : 0 < 2 ^ k) by (apply Z.pow_pos_nonneg; lia).
  unfold align_up, usize_not, usize_wrap.
  rewrite (Z.mod_small (addr + 2 ^ k - 1)) by lia.
  rewrite (Z.mod_small (2 ^ k - 1)).
  2:{ split; [lia|]. assert (2 ^ k <= 2 ^ 64) by (apply Z.pow_le_mono_r; lia). lia. }
  replace (Z.lnot (2 ^ k - 1)) with (Z.lnot (Z.ones k)) by (rewrite Z.ones_equiv; f_equal; lia).
  rewrite (Z.land_comm (Z.lnot _)), Z.land_assoc, Z.land_ones by lia.
  rewrite (Z.mod_small (addr + 2 ^ k - 1)) by lia.
  rewrite <- Z.ldiff_land, Z.ldiff_ones_r by lia.
  rewrite Z.shiftl_mul_pow2, Z.shiftr_div_pow2 by lia. reflexivity.
Qed.

(** X1: for a power-of-two alignment [2^k] (k < 64) and an address whose
    sum [addr + align - 1] does not wrap, [align_up] returns the least
    multiple of the alignment that is >= addr: a multiple of [2^k] in
    [addr, addr + 2^k). *)
Theorem align_up_aligned (addr k : Z) :
  0 <= addr -> 0 <= k < 64 -> addr + 2 ^ k - 1 < 2 ^ 64 ->
  align_up addr (2 ^ k) mod 2 ^ k = 0 /\
  addr <= align_up addr (2 ^ k) < addr + 2 ^ k.
Proof.
  intros Ha Hk Hov. rewrite align_up_pow2 by lia.
  assert (Hp : 0 < 2 ^ k) by (apply Z.pow_pos_nonneg; lia).
  split; [apply Z.mod_mul; lia|].
  pose proof (Z.mul_div_le (addr + 2 ^ k - 1) (2 ^ k) Hp).
  pose proof (Z.mod_pos_bound (addr + 2 ^ k - 1) (2 ^ k) Hp).
  pose proof (Z.div_mod (addr + 2 ^ k - 1) (2 ^ k) ltac:(lia)).
  lia.
Qed.

Lemma alloc_cases (hm : Z) (h : Heap) (l : Layout) :
  heap_wf (lazy_init hm h) -> layout_fits (end_ (lazy_init hm h)) l ->
  let h0 := lazy_init hm h in
  let p := align_up (next h0) (align l) in
  p mod align l = 0 /\ next h0 <= p < next h0 + align l /\
  alloc hm h l = if end_ h0 <? p + size l then (h0, 0)
                 else ({| start := start h0; end_ := end_ h0; next := p + size l |}, p).
Proof.
  intros Hwf [[k [Hk Hal]] [Hsz Hfit]]. cbv zeta.
  set (h0 := lazy_init hm h) in *. set (p := align_up (next h0) (align l)).
  unfold heap_wf in Hwf.
  assert (Hk64 : k < 64).
  { destruct (Z.lt_ge_cases k 64) as [|Hge]; [assumption|].
    assert (2 ^ 64 <= 2 ^ k) by (apply Z.pow_le_mono_r; lia). lia. }
  destruct (align_up_aligned (next h0) k) as [Hm Hb]; [lia|lia|lia|].
  subst p. rewrite Hal in *.
  split; [exact Hm|]. split; [lia|].
  unfold alloc, saturating_add. fold h0. rewrite Hal.
  destruct (Z.le_gt_cases (align_up (next h0) (2 ^ k) + size l) (2 ^ 64 - 1)) as [Hle|Hgt].
  - rewrite Z.min_l by lia. reflexivity.
  - rewrite Z.min_r by lia.
    replace (end_ h0 <? 2 ^ 64 - 1) with true by (symmetry; apply Z.ltb_lt; lia).
    replace (end_ h0 <? align_up (next h0) (2 ^ k) + size l) with true
      by (symmetry; apply Z.ltb_lt; lia).
    reflexivity.
Qed.

(** X2: on an initialised heap (after the lazy initialisation at the top of
    [alloc]) and a layout with power-of-two alignment such that
    [end + align < 2^64] (so [align_up] does not wrap), [alloc] either returns
    null and leaves the heap as it was, exactly when the aligned block does
    not fit below [end], or returns a non-null pointer aligned to the
    layout, at or above [next], whose block ends at or below [end], and
    moves [next] to the end of that block. *)
Theorem alloc_outcome (hm : Z) (h h' : Heap) (l : Layout) (p : Z) :
  heap_wf (lazy_init hm h) -> layout_fits (end_ (lazy_init hm h)) l ->
  alloc hm h l = (h', p) ->
  let h0 := lazy_init hm h in
  (p = 0 /\ h' = h0 /\ end_ h0 < align_up (next h0) (align l) + size l) \/
  (0 < p /\ p mod align l = 0 /\ next h0 <= p /\ p + size l <= end_ h0 /\
   h' = {| start := start h0; end_ := end_ h0; next := p + size l |}).
Proof.
  intros Hwf Hl Ha h0.
  destruct (alloc_cases hm h l Hwf Hl) as [Hm [Hb He]]. fold h0 in Hm, Hb, He, Hwf.
  rewrite Ha in He. unfold heap_wf in Hwf.
  destruct (end_ h0 <? align_up (next h0) (align l) + size l) eqn:Hc.
  - left. injection He as -> ->. apply Z.ltb_lt in Hc. auto.
  - right. injection He as -> ->. apply Z.ltb_ge in Hc. repeat split; lia.
Qed.

Lemma lazy_init_wf (hm : Z) (h : Heap) : heap_wf h -> lazy_init hm h = h.
Proof.
  unfold heap_wf, lazy_init. intros Hwf.
  destruct (start h =? 0) eqn:E; [apply Z.eqb_eq in E; lia|reflexivity].
Qed.

(** X3: over any sequence of allocations from an initialised heap, with
    layouts of power-of-two alignment such that [end + align < 2^64], the
    blocks of the non-null pointers lie in order and without overlap
    between the heap's [next] at the start and its [next] at the end, the
    heap keeps its [start] and [end], and [start <= next <= end] holds
    throughout. *)
Theorem alloc_all_disjoint (hm : Z) (h h' : Heap) (ls : list Layout) (ps : list Z) :
  heap_wf (lazy_init hm h) ->
  Forall (layout_fits (end_ (lazy_init hm h))) ls ->
  alloc_all hm h ls = (h', ps) ->
  blocks_within (next (lazy_init hm h)) (granted ls ps) (next (lazy_init hm h')) /\
  start (lazy_init hm h') = start (lazy_init hm h) /\
  end_ (lazy_init hm h') = end_ (lazy_init hm h) /\
  heap_wf (lazy_init hm h').
Proof.
  revert h h' ps. induction ls as [|l ls IH]; intros h h' ps Hwf Hls Ha.
  - cbn in Ha. injection Ha as <- <-. cbn.
    pose proof Hwf as Hwf'. unfold heap_wf in Hwf'.
    split; [lia|]. split; [reflexivity|]. split; [reflexivity|exact Hwf].
  - inversion Hls as [|? ? Hl Hls']; subst.
    cbn in Ha. destruct (alloc hm h l) as [h1 p] eqn:Ha1.
    destruct (alloc_all hm h1 ls) as [h2 ps'] eqn:Ha2.
    injection Ha as <- <-.
    pose proof (alloc_outcome hm h h1 l p Hwf Hl Ha1) as Hout. cbv zeta in Hout.
    set (h0 := lazy_init hm h) in *.
    assert (Hwf1 : heap_wf h1 /\ start h1 = start h0 /\ end_ h1 = end_ h0 /\ next h0 <= next h1).
    { pose proof Hl as [_ [Hsz _]].
      unfold heap_wf in *. destruct Hout as [[-> [-> _]] | [Hp [_ [Hn [He ->]]]]];
        cbn; repeat split; lia. }
    destruct Hwf1 as [Hwf1 [Hs1 [He1 Hn1]]].
    assert (Hli : lazy_init hm h1 = h1) by (apply lazy_init_wf; exact Hwf1).
    destruct (IH h1 h2 ps') as [Hb [Hs2 [He2 Hwf2]]].
    + rewrite Hli; exact Hwf1.
    + rewrite Hli, He1; exact Hls'.
    + exact Ha2.
    + rewrite Hli in Hb, Hs2, He2.
      split; [|split; [congruence|split; [congruence|exact Hwf2]]].
      cbn. destruct (p =? 0) eqn:Ep.
      * apply Z.eqb_eq in Ep. subst p.
        destruct Hout as [[_ [-> _]] | [Hp _]]; [exact Hb|lia].
      * apply Z.eqb_neq in Ep.
        destruct Hout as [[Hp0 _] | [Hp [_ [Hn [_ Hh1]]]]]; [lia|].
        rewrite Hh1 in Hb. cbn in Hb. cbn. split; [lia|exact Hb].
Qed.

Lemma next_cluster_some_not_end (e : FatEntry) (c : Z) :
  next_cluster e = Some c -> is_end e = false.
Proof.
  unfold next_cluster. destruct (is_end e); [rewrite !orb_true_r; discriminate|auto].
Qed.

Lemma read_fat_entry_ok_ge2 (fs : Fat32Fs) (c : Z) (e : FatEntry) :
  read_fat_entry fs c = Ok e -> 2 <= c.
Proof.
  unfold read_fat_entry. destruct (Z.ltb_spec c 2); [discriminate|lia].
Qed.

Lemma chain_loop_follows (fs : Fat32Fs) (l : list Z) :
  cluster_size_of (geom fs) <= 4096 ->
  forall c count fuel buf s,
  fat_chain fs c l ->
  (forall c' b, In c' (c :: l) -> exists out,
     read_sectors (device fs) (cluster_to_lba (geom fs) c') (g_sectors_per_cluster (geom fs)) b = inr out) ->
  length buf = 4096%nat ->
  0 <= count -> count + Z.of_nat (length (c :: l)) <= MAX_CLUSTERS ->
  (length (c :: l) <= fuel)%nat ->
  chain_loop (list Z) record_cluster fs fuel count c buf s = (s ++ c :: l, Ok tt).
Proof.
  intros Hsize.
  pose proof (u32_wrap_range (g_sectors_per_cluster (geom fs) * g_bytes_per_sector (geom fs))) as Hr.
  fold (cluster_size_of (geom fs)) in Hr.
  induction l as [|c1 l IH]; intros c count fuel buf s Hch Hdev Hlen Hc0 Hcount Hfuel;
    (destruct fuel as [|fuel]; [cbn in Hfuel; lia|]); cbn [chain_loop];
    (destruct (Z.leb_spec MAX_CLUSTERS count); [cbn [length] in Hcount; lia|]);
    set (cs := Z.to_nat (cluster_size_of (geom fs)));
    (assert (Hcs : length (firstn cs buf) = cs) by (rewrite length_firstn; subst cs; lia));
    unfold read_cluster at 1.
  - destruct Hch as [e [He Hn]].
    pose proof (read_fat_entry_ok_ge2 _ _ _ He) as H2.
    destruct (Z.ltb_spec c 2); [lia|].
    destruct (Z.ltb_spec (Z.of_nat (length (firstn cs buf))) (cluster_size_of (geom fs)));
      [rewrite Hcs in *; subst cs; lia|].
    destruct (Hdev c (firstn cs buf)) as [out Hout]; [left; reflexivity|].
    cbv zeta. rewrite Hout. cbn [record_cluster]. rewrite He.
    destruct (is_end e); [reflexivity|]. rewrite Hn. reflexivity.
  - destruct Hch as [[e [He Hn]] Hch].
    pose proof (read_fat_entry_ok_ge2 _ _ _ He) as H2.
    destruct (Z.ltb_spec c 2); [lia|].
    destruct (Z.ltb_spec (Z.of_nat (length (firstn cs buf))) (cluster_size_of (geom fs)));
      [rewrite Hcs in *; subst cs; lia|].
    destruct (Hdev c (firstn cs buf)) as [out Hout]; [left; reflexivity|].
    cbv zeta. rewrite Hout. cbn [record_cluster]. rewrite He.
    rewrite (next_cluster_some_not_end _ _ Hn), Hn.
    rewrite IH with (s := s ++ [c]).
    + rewrite <- app_assoc. reflexivity.
    + exact Hch.
    + intros c' b Hin. apply Hdev. right. exact Hin.
    + rewrite length_app, length_write_slice, Hcs, length_skipn. subst cs. lia.
    + lia.
    + cbn [length] in *. lia.
    + cbn [length] in *. lia.
Qed.

(** X4: when the FAT links [start -> c1 -> ... -> cn] and the entry of [cn]
    names no next cluster (end of chain, free or bad), the device reads of
    these clusters succeed, clusters are at most 4 KiB and the chain has at
    most [MAX_CLUSTERS] clusters, [read_cluster_chain] calls its visitor on
    exactly these clusters, in order, and returns [Ok]. *)
Theorem read_cluster_chain_follows_chain (fs : Fat32Fs) (start : Z) (rest : list Z) :
  cluster_size_of (geom fs) <= 4096 ->
  fat_chain fs start rest ->
  (forall c b, In c (start :: rest) -> exists out,
     read_sectors (device fs) (cluster_to_lba (geom fs) c) (g_sectors_per_cluster (geom fs)) b = inr out) ->
  Z.of_nat (length (start :: rest)) <= MAX_CLUSTERS ->
  read_cluster_chain (list Z) record_cluster fs start [] = (start :: rest, Ok tt).
Proof.
  intros Hsize Hch Hdev Hlen. unfold read_cluster_chain.
  rewrite repeat_length.
  destruct (Z.ltb_spec (Z.of_nat 4096) (cluster_size_of (geom fs))); [lia|].
  change (start :: rest, Ok tt) with ([] ++ start :: rest, @Ok unit tt).
  apply chain_loop_follows;
    [exact Hsize | exact Hch | exact Hdev | apply repeat_length | lia | lia |].
  unfold MAX_CLUSTERS in *. lia.
Qed.

Lemma read_cluster_ok_length (fs : Fat32Fs) (c : Z) (buf b : list byte) :
  read_cluster fs c buf = Ok b -> length b = length buf.
Proof.
  unfold read_cluster. destruct (c <? 2); [discriminate|].
  destruct (_ <? _); [discriminate|].
  destruct (read_sectors _ _ _ _); [discriminate|].
  intros Hx. injection Hx as <-. apply length_write_slice.
Qed.

Lemma load_cluster_length (fs : Fat32Fs) (c : Z) (buffer b : list byte) :
  load_cluster fs c buffer = Ok b -> length b = length buffer.
Proof.
  unfold load_cluster.
  pose proof (u32_wrap_range (g_sectors_per_cluster (geom fs) * g_bytes_per_sector (geom fs))) as Hr.
  fold (cluster_size_of (geom fs)) in Hr.
  destruct (Z.ltb_spec (Z.of_nat (length buffer)) (cluster_size_of (geom fs))); [discriminate|].
  cbv zeta.
  destruct (read_cluster fs c _) as [chunk| |] eqn:Hrc; try discriminate.
  intros Hx. injection Hx as <-.
  rewrite length_app, (read_cluster_ok_length _ _ _ _ Hrc), length_firstn, length_skipn. lia.
Qed.

Lemma advance_inv (it it1 : DirectoryIterator) (r : Res bool) :
  iter_inv it -> advance it = (it1, r) ->
  iter_inv it1 /\ (r = Ok true -> it_offset it1 = 0).
Proof.
  intros Hi. unfold advance.
  destruct (read_fat_entry _ _) as [fe| e |].
  2,3: intros Hx; injection Hx as <- <-; split; [exact Hi|discriminate].
  destruct (is_end fe).
  { intros Hx; injection Hx as <- <-. split; [exact Hi|discriminate]. }
  destruct (next_cluster fe) as [nx|].
  2: intros Hx; injection Hx as <- <-; split; [exact Hi|discriminate].
  destruct Hi as [Hl Ho].
  destruct (load_cluster _ _ _) as [b| e |] eqn:Hlc;
    intros Hx; injection Hx as <- <-.
  - apply load_cluster_length in Hlc. cbn in *.
    split; [unfold iter_inv; cbn; split; [congruence|lia]|auto].
  - split; [unfold iter_inv; cbn; split; [exact Hl|lia]|discriminate].
  - split; [unfold iter_inv; cbn; split; [exact Hl|lia]|discriminate].
Qed.

Ltac inv_tac := unfold iter_inv, set_done, set_pos in *; cbn [it_offset it_buffer it_done it_cluster it_fs] in *; split; [assumption|Z.div_mod_to_equations; lia].

Lemma next_loop_inv (fuel : nat) :
  forall it it' r, iter_inv it -> next_loop fuel it = Some (it', r) ->
  iter_inv it' /\
  (forall e, r = Ok (Some e) ->
     32 <= it_offset it' /\ e = entry_at (it_buffer it') (it_offset it' - 32)).
Proof.
  induction fuel as [|fuel IH]; intros it it' r Hi Hn; [discriminate|].
  cbn [next_loop] in Hn.
  destruct (Z.leb_spec 4096 (it_offset it)) as [Hge|Hlt].
  - destruct (advance it) as [it1 r1] eqn:Ha.
    destruct (advance_inv it it1 r1 Hi Ha) as [Hi1 Ho1].
    destruct r1 as [[|]| e |]; try (injection Hn as <- <-; split; [exact Hi1|discriminate]).
    specialize (Ho1 eq_refl). destruct Hi1 as [Hl1 [Hb1 Hm1]].
    destruct (_ =? 0); [injection Hn as <- <-; split; [|discriminate]; inv_tac|].
    destruct (_ || _).
    + refine (IH _ _ _ _ Hn). inv_tac.
    + injection Hn as <- <-. split; [inv_tac|].
      intros e He. injection He as <-. cbn. split; [lia|]. f_equal. lia.
  - destruct Hi as [Hl [Hb Hm]].
    destruct (_ =? 0); [injection Hn as <- <-; split; [|discriminate]; inv_tac|].
    destruct (_ || _).
    + refine (IH _ _ _ _ Hn). inv_tac.
    + injection Hn as <- <-. split; [inv_tac|].
      intros e He. injection He as <-. cbn. split; [lia|]. f_equal. lia.
Qed.

(** X5: [next_entry] keeps the iterator's offset a multiple of 32 within its
    4096-byte buffer, and every entry it yields is the 32-byte record that
    ends at the new offset, inside the buffer: the unsafe overlay never
    reads past the buffer. *)
Theorem next_entry_reads_in_buffer (fuel : nat) (it it' : DirectoryIterator)
    (r : Res (option DirectoryEntryRaw)) :
  iter_inv it -> next_entry fuel it = Some (it', r) ->
  iter_inv it' /\
  (forall e, r = Ok (Some e) ->
     32 <= it_offset it' <= 4096 /\ e = entry_at (it_buffer it') (it_offset it' - 32)).
Proof.
  intros Hi Hn. unfold next_entry in Hn.
  destruct (it_done it).
  - injection Hn as <- <-. split; [exact Hi|discriminate].
  - destruct (next_loop_inv fuel it it' r Hi Hn) as [Hi' He].
    split; [exact Hi'|]. intros e Hr. destruct (He e Hr). destruct Hi' as [_ [Hb _]].
    split; [lia|assumption].
Qed.

Lemma next_loop_none_done (fuel : nat) :
  forall it it', next_loop fuel it = Some (it', Ok None) -> it_done it' = true.
Proof.
  induction fuel as [|fuel IH]; intros it it' Hn; [discriminate|].
  cbn [next_loop] in Hn.
  destruct (if 4096 <=? it_offset it then advance it else (it, Ok true)) as [it1 r1] eqn:Ha.
  destruct r1 as [[|]| e |]; try discriminate.
  - destruct (_ =? 0); [injection Hn as <-; reflexivity|].
    destruct (_ || _); [exact (IH _ _ Hn)|discriminate].
  - injection Hn as <-.
    destruct (4096 <=? it_offset it); [|discriminate].
    unfold advance in Ha.
    destruct (read_fat_entry _ _); try discriminate.
    destruct (is_end _); [injection Ha as <-; reflexivity|].
    destruct (next_cluster _); [|injection Ha as <-; reflexivity].
    destruct (load_cluster _ _ _); discriminate.
Qed.

(** X7: once [next_entry] has returned [Ok(None)], the iterator is marked
    done and every later call returns [Ok(None)] without changing it. *)
Theorem next_entry_exhausted_stays (fuel : nat) (it it' : DirectoryIterator) :
  next_entry fuel it = Some (it', Ok None) ->
  it_done it' = true /\ forall fuel', next_entry fuel' it' = Some (it', Ok None).
Proof.
  intros Hn.
  assert (Hd : it_done it' = true).
  { unfold next_entry in Hn. destruct (it_done it) eqn:E.
    - injection Hn as <-. exact E.
    - exact (next_loop_none_done _ _ _ Hn). }
  split; [exact Hd|]. intros fuel'. unfold next_entry. rewrite Hd. reflexivity.
Qed.

(** X10: with clusters of at most 4 KiB, [read_cluster_chain] on a start
    cluster below 2 returns [InvalidCluster(start)] and leaves the visitor's
    state as it was. *)
Theorem read_cluster_chain_reserved_start (St : Type)
    (cb : St -> Z -> list byte -> St * Res unit) (fs : Fat32Fs) (start : Z) (s : St) :
  cluster_size_of (geom fs) <= 4096 -> start < 2 ->
  read_cluster_chain St cb fs start s = (s, Err (InvalidCluster start)).
Proof.
  intros Hsize Hstart. unfold read_cluster_chain.
  rewrite repeat_length.
  destruct (Z.ltb_spec (Z.of_nat 4096) (cluster_size_of (geom fs))); [lia|].
  change MAX_CLUSTERS with (Z.succ 99999) at 1. rewrite Z2Nat.inj_succ by lia.
  cbn [chain_loop]. replace (MAX_CLUSTERS <=? 0) with false by reflexivity.
  unfold read_cluster at 1. destruct (Z.ltb_spec start 2); [reflexivity|lia].
Qed.

(** X11: [mount] does not check [bytes_per_sector]; on a volume it mounted
    with [bytes_per_sector = 0], [read_fat_entry] panics (division by zero)
    on every cluster >= 2. *)
Theorem mount_zero_sector_size_fat_panics (d : BlockDevice) (bs : list byte)
    (fs : Fat32Fs) (c : Z) :
  mount d bs = Ok fs -> le16 bs 11 = 0 -> 2 <= c -> read_fat_entry fs c = Panic.
Proof.
  intros Hm Hb Hc. destruct (mount_ok_inv d bs fs Hm) as (_ & _ & _ & _ & _ & ->).
  unfold read_fat_entry. destruct (Z.ltb_spec c 2); [lia|].
  cbn [geom from_bpb g_bytes_per_sector from_sector bytes_per_sector].
  rewrite Hb. reflexivity.
Qed.

(** X12: with clusters of at most 4 KiB, [read_root_dir] on a volume whose
    root cluster is below 2 returns [InvalidCluster(root_cluster)]. *)
Theorem read_root_dir_reserved_root (fs : Fat32Fs) :
  g_root_cluster (geom fs) < 2 -> cluster_size_of (geom fs) <= 4096 ->
  read_root_dir fs = Err (InvalidCluster (g_root_cluster (geom fs))).
Proof.
  intros Hr Hs. unfold read_root_dir, DirectoryIterator_new, load_cluster.
  rewrite repeat_length.
  destruct (Z.ltb_spec (Z.of_nat 4096) (cluster_size_of (geom fs))); [lia|].
  unfold read_cluster at 1. destruct (Z.ltb_spec (g_root_cluster (geom fs)) 2); [reflexivity|lia].
Qed.

(** X13: when [sectors_per_cluster > 0] and [first_data_sector +
    (c2 - 2) * sectors_per_cluster] fits in 32 bits, [cluster_to_lba] is
    exact at any cluster 2 <= c1 < c2, and the sector range of c1 ends at or
    before the start of c2: distinct clusters get disjoint sector ranges. *)
Theorem cluster_to_lba_disjoint (g : Fat32Geometry) (c1 c2 : Z) :
  0 <= first_data_sector g -> 0 < g_sectors_per_cluster g -> 2 <= c1 < c2 ->
  first_data_sector g + (c2 - 2) * g_sectors_per_cluster g < 2 ^ 32 ->
  cluster_to_lba g c1 = first_data_sector g + (c1 - 2) * g_sectors_per_cluster g /\
  cluster_to_lba g c1 + g_sectors_per_cluster g <= cluster_to_lba g c2.
Proof.
  intros Hf Hs Hc Hb.
  set (spc := g_sectors_per_cluster g) in *. set (fds := first_data_sector g) in *.
  assert (Hlba : forall c, 2 <= c <= c2 -> cluster_to_lba g c = fds + (c - 2) * spc).
  { intros c Hcc. unfold cluster_to_lba. fold spc fds.
    assert ((c - 2) * spc <= (c2 - 2) * spc) by nia.
    rewrite (u32_wrap_small (c - 2)) by nia.
    rewrite (u32_wrap_small ((c - 2) * spc)) by nia.
    apply u32_wrap_small. nia. }
  rewrite (Hlba c1), (Hlba c2) by lia. split; [reflexivity|nia].
Qed.

Lemma lor_shiftl_16 (hi lo : Z) :
  0 <= hi -> 0 <= lo < 2 ^ 16 -> Z.lor (Z.shiftl hi 16) lo = hi * 2 ^ 16 + lo.
Proof.
  intros Hh Hl.
  assert (Hd : Z.land (Z.shiftl hi 16) lo = 0).
  { apply Z.bits_inj'. intros n Hn. rewrite Z.land_spec, Z.bits_0.
    destruct (Z.lt_ge_cases n 16).
    - rewrite Z.shiftl_spec_low by lia. reflexivity.
    - rewrite <- (Z.mod_small lo (2 ^ 16)) by lia.
      rewrite Z.mod_pow2_bits_high by lia. apply andb_false_r. }
  rewrite <- Z.lxor_lor by exact Hd. rewrite <- Z.add_nocarry_lxor by exact Hd.
  rewrite Z.shiftl_mul_pow2 by lia. reflexivity.
Qed.

(** X14: the [first_cluster] of a decoded directory entry is
    [first_cluster_high * 65536 + first_cluster_low] of its little-endian
    fields at bytes 20 and 26, and the two 16-bit halves are recovered from
    it by [>> 16] and [& 0xFFFF]. *)
Theorem first_cluster_entry_at (buf : list byte) (off : Z) :
  first_cluster (entry_at buf off) = le16 buf (off + 20) * 2 ^ 16 + le16 buf (off + 26) /\
  Z.shiftr (first_cluster (entry_at buf off)) 16 = le16 buf (off + 20) /\
  Z.land (first_cluster (entry_at buf off)) 0xFFFF = le16 buf (off + 26).
Proof.
  pose proof (le16_range buf (off + 20)) as Hh. pose proof (le16_range buf (off + 26)) as Hl.
  unfold first_cluster. cbn [first_cluster_high first_cluster_low entry_at].
  rewrite lor_shiftl_16 by lia.
  split; [reflexivity|]. split.
  - rewrite Z.shiftr_div_pow2 by lia. rewrite Z.div_add_l by lia.
    rewrite Z.div_small by lia. lia.
  - change 0xFFFF with (Z.ones 16). rewrite Z.land_ones by lia.
    rewrite Z.add_comm, Z.mod_add by lia. apply Z.mod_small. lia.
Qed.

(** ** Witnesses: the hypotheses of the theorems above hold on concrete volumes *)

(** [cluster_to_lba_mounted] on the S3 geometry at cluster 10. *)
Lemma cluster_to_lba_mounted_witness :
  mount zero_device (s3_boot 8 2) =
    Ok (Fat32Fs_new zero_device (from_bpb (from_sector (s3_boot 8 2)))) /\
  2 <= 10 < 2 ^ 32 /\
  cluster_to_lba (from_bpb (from_sector (s3_boot 8 2))) 10 =
    u32_wrap (first_data_sector (from_bpb (from_sector (s3_boot 8 2)))
              + (10 - 2) * sectors_per_cluster (from_sector (s3_boot 8 2))).
Proof.
  assert (Hm : mount zero_device (s3_boot 8 2) =
    Ok (Fat32Fs_new zero_device (from_bpb (from_sector (s3_boot 8 2)))))
    by (vm_compute; reflexivity).
  assert (Hc : 2 <= 10 < 2 ^ 32) by lia.
  split; [exact Hm | split; [exact Hc |]].
  exact (proj1 (proj2 (proj2 (cluster_to_lba_mounted zero_device (s3_boot 8 2) _ 10 Hm Hc)))).
Defined.

(** [read_fat_entry_masked] on the slot [05 00 00 F0] of cluster 2. *)
Lemma read_fat_entry_masked_witness :
  read_fat_entry (slot_fs [x05; x00; x00; xf0]) 2 = Ok (FatEntry_new 5) /\
  exists w, fat_slot (slot_fs [x05; x00; x00; xf0]) 2 = Some w /\ 0 <= w < 2 ^ 32 /\
            FatEntry_new 5 = FatEntry_new (Z.land w 0x0FFFFFFF).
Proof.
  assert (H : read_fat_entry (slot_fs [x05; x00; x00; xf0]) 2 = Ok (FatEntry_new 5))
    by (vm_compute; reflexivity).
  split; [exact H |].
  exact (proj1 (read_fat_entry_masked _ 2 _ H)).
Defined.

(** [read_fat_entry_in_bounds] on the S3 geometry (512-byte sectors) at
    cluster 200. *)
Lemma read_fat_entry_in_bounds_witness :
  g_bytes_per_sector (geom (Fat32Fs_new zero_device (from_bpb (from_sector (s3_boot 8 2))))) = 512 /\
  2 <= 200 /\
  read_fat_entry (Fat32Fs_new zero_device (from_bpb (from_sector (s3_boot 8 2)))) 200 <> Panic.
Proof.
  assert (Hb : g_bytes_per_sector
                 (geom (Fat32Fs_new zero_device (from_bpb (from_sector (s3_boot 8 2))))) = 512)
    by (vm_compute; reflexivity).
  assert (Hc : 2 <= 200) by lia.
  split; [exact Hb | split; [exact Hc |]].
  exact (proj1 (proj2 (read_fat_entry_in_bounds _ 200 Hb Hc))).
Defined.

(** [read_cluster_chain_step_budget] on the one-cluster cycle 2 -> 2. *)
Lemma read_cluster_chain_step_budget_witness :
  exists cur, cur = 2 /\
    snd (read_cluster_chain unit (fun s _ _ => (s, Ok tt)) cycle_fs 2 tt) =
    Err (InvalidCluster cur).
Proof.
  apply (proj2 read_cluster_chain_step_budget unit (fun s _ _ => (s, Ok tt)) cycle_fs 2 tt
           (fun c => c = 2)).
  - vm_compute. discriminate.
  - intros lba n b. eexists. reflexivity.
  - intros s c b. reflexivity.
  - intros c ->. split; [lia |].
    exists (FatEntry_new 2), 2.
    split; [vm_compute; reflexivity | split; [reflexivity | split; reflexivity]].
  - reflexivity.
Defined.

(** ** Witnesses of the further properties *)

(** [align_up_aligned] on the source test [align_up(10, 8) == 16]. *)
Lemma align_up_aligned_witness :
  (0 <= 10 /\ 0 <= 3 < 64 /\ 10 + 2 ^ 3 - 1 < 2 ^ 64) /\
  align_up 10 (2 ^ 3) = 16 /\
  align_up 10 (2 ^ 3) mod 2 ^ 3 = 0 /\ 10 <= align_up 10 (2 ^ 3) < 10 + 2 ^ 3.
Proof.
  assert (H : 0 <= 10 /\ 0 <= 3 < 64 /\ 10 + 2 ^ 3 - 1 < 2 ^ 64) by lia.
  split; [exact H | split; [vm_compute; reflexivity |]].
  destruct H as [H1 [H2 H3]].
  exact (align_up_aligned 10 3 H1 H2 H3).
Defined.

(** [alloc_outcome] on the first allocation (16 bytes, alignment 8) from
    an empty allocator, [HEAP_MEMORY] at 0x1000: the lazy initialisation
    sets up the 64 KiB heap and the block starts at 0x1000. *)
Lemma alloc_outcome_witness :
  heap_wf (lazy_init 0x1000 empty) /\
  layout_fits (end_ (lazy_init 0x1000 empty)) (Layout_from_size_align 16 8) /\
  alloc 0x1000 empty (Layout_from_size_align 16 8) =
    ({| start := 0x1000; end_ := 0x11000; next := 0x1010 |}, 0x1000) /\
  ((0x1000 = 0 /\ {| start := 0x1000; end_ := 0x11000; next := 0x1010 |} = lazy_init 0x1000 empty /\
    end_ (lazy_init 0x1000 empty) <
      align_up (next (lazy_init 0x1000 empty)) (align (Layout_from_size_align 16 8))
      + size (Layout_from_size_align 16 8)) \/
   (0 < 0x1000 /\ 0x1000 mod align (Layout_from_size_align 16 8) = 0 /\
    next (lazy_init 0x1000 empty) <= 0x1000 /\
    0x1000 + size (Layout_from_size_align 16 8) <= end_ (lazy_init 0x1000 empty) /\
    {| start := 0x1000; end_ := 0x11000; next := 0x1010 |} =
      {| start := start (lazy_init 0x1000 empty); end_ := end_ (lazy_init 0x1000 empty);
         next := 0x1000 + size (Layout_from_size_align 16 8) |})).
Proof.
  assert (Hw : heap_wf (lazy_init 0x1000 empty)) by (vm_compute; repeat split; discriminate).
  assert (Hl : layout_fits (end_ (lazy_init 0x1000 empty)) (Layout_from_size_align 16 8)).
  { split; [exists 3; split; [lia | reflexivity] |]. split; [vm_compute; discriminate |].
    vm_compute. reflexivity. }
  assert (Ha : alloc 0x1000 empty (Layout_from_size_align 16 8) =
    ({| start := 0x1000; end_ := 0x11000; next := 0x1010 |}, 0x1000)) by (vm_compute; reflexivity).
  split; [exact Hw | split; [exact Hl | split; [exact Ha |]]].
  exact (alloc_outcome 0x1000 empty _ _ _ Hw Hl Ha).
Defined.

(** [alloc_all_disjoint] on the heap of the source test
    [test_multiple_allocations] (init(0x1000, 1024)): 16 bytes, then 2048
    bytes (refused), then 16 bytes. *)
Lemma alloc_all_disjoint_witness :
  heap_wf (lazy_init 0 (init empty 0x1000 1024)) /\
  Forall (layout_fits (end_ (lazy_init 0 (init empty 0x1000 1024))))
    [Layout_from_size_align 16 8; Layout_from_size_align 2048 8; Layout_from_size_align 16 8] /\
  alloc_all 0 (init empty 0x1000 1024)
    [Layout_from_size_align 16 8; Layout_from_size_align 2048 8; Layout_from_size_align 16 8] =
    ({| start := 0x1000; end_ := 0x1400; next := 0x1020 |}, [0x1000; 0; 0x1010]) /\
  blocks_within 0x1000 [(0x1000, 16); (0x1010, 16)] 0x1020.
Proof.
  assert (Hw : heap_wf (lazy_init 0 (init empty 0x1000 1024)))
    by (vm_compute; repeat split; discriminate).
  assert (Hl : Forall (layout_fits (end_ (lazy_init 0 (init empty 0x1000 1024))))
    [Layout_from_size_align 16 8; Layout_from_size_align 2048 8; Layout_from_size_align 16 8]).
  { repeat constructor; try (exists 3; split; [lia | reflexivity]);
      vm_compute; first [discriminate | reflexivity]. }
  assert (Ha : alloc_all 0 (init empty 0x1000 1024)
    [Layout_from_size_align 16 8; Layout_from_size_align 2048 8; Layout_from_size_align 16 8] =
    ({| start := 0x1000; end_ := 0x1400; next := 0x1020 |}, [0x1000; 0; 0x1010]))
    by (vm_compute; reflexivity).
  split; [exact Hw | split; [exact Hl | split; [exact Ha |]]].
  exact (proj1 (alloc_all_disjoint 0 _ _ _ _ Hw Hl Ha)).
Defined.

(** [read_cluster_chain_follows_chain] on the S6 directory chain 100 -> 101. *)
Lemma read_cluster_chain_follows_chain_witness :
  fat_chain s6_fs 100 [101] /\
  read_cluster_chain (list Z) record_cluster s6_fs 100 [] = ([100; 101], Ok tt).
Proof.
  assert (Hc : fat_chain s6_fs 100 [101]).
  { split.
    - exists (FatEntry_new 101). split; vm_compute; reflexivity.
    - exists (FatEntry_new 0x0FFFFFFF). split; vm_compute; reflexivity. }
  split; [exact Hc |].
  apply read_cluster_chain_follows_chain; [vm_compute; discriminate | exact Hc | | vm_compute; discriminate].
  intros c b [<- | [<- | []]].
  - exists s6_cluster100. vm_compute. reflexivity.
  - exists s6_cluster101. vm_compute. reflexivity.
Defined.

(** [next_entry_reads_in_buffer] on the first entry of the S6 root directory. *)
Lemma next_entry_reads_in_buffer_witness :
  iter_inv s6_root_iter /\
  next_entry 10 s6_root_iter =
    Some (set_pos s6_root_iter 100 32, Ok (Some (entry_at s6_cluster100 0))) /\
  32 <= it_offset (set_pos s6_root_iter 100 32) <= 4096 /\
  entry_at s6_cluster100 0 =
    entry_at (it_buffer (set_pos s6_root_iter 100 32)) (it_offset (set_pos s6_root_iter 100 32) - 32).
Proof.
  assert (Hi : iter_inv s6_root_iter) by (vm_compute; split; [reflexivity | split; [split; discriminate | reflexivity]]).
  assert (Hn : next_entry 10 s6_root_iter =
    Some (set_pos s6_root_iter 100 32, Ok (Some (entry_at s6_cluster100 0))))
    by (vm_compute; reflexivity).
  split; [exact Hi | split; [exact Hn |]].
  exact (proj2 (next_entry_reads_in_buffer 10 _ _ _ Hi Hn) _ eq_refl).
Defined.

(** [next_entry_exhausted_stays] on the terminator of cluster 101 of S6. *)
Lemma next_entry_exhausted_stays_witness :
  let it := {| it_fs := s6_fs; it_cluster := 101; it_offset := 32;
               it_buffer := s6_cluster101; it_done := false |} in
  next_entry 1 it = Some (set_done (set_pos it 101 64), Ok None) /\
  it_done (set_done (set_pos it 101 64)) = true /\
  next_entry 5 (set_done (set_pos it 101 64)) = Some (set_done (set_pos it 101 64), Ok None).
Proof.
  intros it.
  assert (H : next_entry 1 it = Some (set_done (set_pos it 101 64), Ok None))
    by (vm_compute; reflexivity).
  split; [exact H |].
  destruct (next_entry_exhausted_stays 1 it _ H) as [Hd Hs].
  split; [exact Hd | exact (Hs 5%nat)].
Defined.

(** [read_cluster_chain_reserved_start] on cluster 0 of S6. *)
Lemma read_cluster_chain_reserved_start_witness :
  cluster_size_of (geom s6_fs) <= 4096 /\
  read_cluster_chain (list Z) record_cluster s6_fs 0 [] = ([], Err (InvalidCluster 0)).
Proof.
  assert (Hs : cluster_size_of (geom s6_fs) <= 4096) by (vm_compute; discriminate).
  split; [exact Hs |].
  exact (read_cluster_chain_reserved_start _ _ s6_fs 0 [] Hs ltac:(lia)).
Defined.

(** [mount_zero_sector_size_fat_panics] on the S3 boot sector with
    [bytes_per_sector = 0]. *)
Lemma mount_zero_sector_size_fat_panics_witness :
  mount zero_device (mk_boot_sector 0 8 32 2 0 1009 2 sig_ok) =
    Ok (Fat32Fs_new zero_device (from_bpb (from_sector (mk_boot_sector 0 8 32 2 0 1009 2 sig_ok)))) /\
  le16 (mk_boot_sector 0 8 32 2 0 1009 2 sig_ok) 11 = 0 /\
  read_fat_entry
    (Fat32Fs_new zero_device (from_bpb (from_sector (mk_boot_sector 0 8 32 2 0 1009 2 sig_ok)))) 2
  = Panic.
Proof.
  assert (Hm : mount zero_device (mk_boot_sector 0 8 32 2 0 1009 2 sig_ok) =
    Ok (Fat32Fs_new zero_device (from_bpb (from_sector (mk_boot_sector 0 8 32 2 0 1009 2 sig_ok)))))
    by (vm_compute; reflexivity).
  assert (Hb : le16 (mk_boot_sector 0 8 32 2 0 1009 2 sig_ok) 11 = 0) by (vm_compute; reflexivity).
  split; [exact Hm | split; [exact Hb |]].
  exact (mount_zero_sector_size_fat_panics _ _ _ 2 Hm Hb ltac:(lia)).
Defined.

(** [read_root_dir_reserved_root] on the S3 volume with [root_cluster = 0],
    which [mount] accepts. *)
Lemma read_root_dir_reserved_root_witness :
  mount zero_device (s3_boot 8 0) =
    Ok (Fat32Fs_new zero_device (from_bpb (from_sector (s3_boot 8 0)))) /\
  read_root_dir (Fat32Fs_new zero_device (from_bpb (from_sector (s3_boot 8 0)))) =
    Err (InvalidCluster 0).
Proof.
  split; [vm_compute; reflexivity |].
  exact (read_root_dir_reserved_root (Fat32Fs_new zero_device (from_bpb (from_sector (s3_boot 8 0))))
           ltac:(vm_compute; reflexivity) ltac:(vm_compute; discriminate)).
Defined.

(** [cluster_to_lba_disjoint] on the S3 geometry, clusters 2 and 3. *)
Lemma cluster_to_lba_disjoint_witness :
  0 <= first_data_sector (from_bpb (from_sector (s3_boot 8 2))) /\
  0 < g_sectors_per_cluster (from_bpb (from_sector (s3_boot 8 2))) /\
  first_data_sector (from_bpb (from_sector (s3_boot 8 2)))
    + (3 - 2) * g_sectors_per_cluster (from_bpb (from_sector (s3_boot 8 2))) < 2 ^ 32 /\
  cluster_to_lba (from_bpb (from_sector (s3_boot 8 2))) 2
    + g_sectors_per_cluster (from_bpb (from_sector (s3_boot 8 2)))
    <= cluster_to_lba (from_bpb (from_sector (s3_boot 8 2))) 3.
Proof.
  assert (H1 : 0 <= first_data_sector (from_bpb (from_sector (s3_boot 8 2))))
    by (vm_compute; discriminate).
  assert (H2 : 0 < g_sectors_per_cluster (from_bpb (from_sector (s3_boot 8 2))))
    by (vm_compute; reflexivity).
  assert (H3 : first_data_sector (from_bpb (from_sector (s3_boot 8 2)))
    + (3 - 2) * g_sectors_per_cluster (from_bpb (from_sector (s3_boot 8 2))) < 2 ^ 32)
    by (vm_compute; reflexivity).
  split; [exact H1 | split; [exact H2 | split; [exact H3 |]]].
  exact (proj2 (cluster_to_lba_disjoint _ 2 3 H1 H2 ltac:(lia) H3)).
Defined.
